(** * Job-validation routes of the ML plugin, and the netsh detection rule

    A shallow embedding of
    [x-pack/plugins/ml/server/routes/job_validation.ts] (the five
    [router.post] registrations of [jobValidationRoutes] and their
    handlers) and of the EQL query of the detection rule
    "Disable Windows Firewall Rules via Netsh".

    The handlers are effectful: each one calls a function of the ML
    "models" layer, which talks to the analytics cluster.  Those calls are
    the events of a small free monad [prog]; an environment answers them,
    and [run] returns the calls made together with the handler's outcome. *)

From Stdlib Require Import ZArith List String Ascii Bool Lia.
Import ListNotations.
Open Scope string_scope.
Open Scope Z_scope.

#[local] Set Warnings "-register-all".

(** ** JavaScript values *)

(** The values that travel through the handlers: request bodies, model
    results, thrown errors.  [VError] is an [Error] instance; [VBoom] is an
    error object built by the [@hapi/boom] library, which carries the HTTP
    status code it stands for ([output.statusCode]) and what it was built
    from. *)
Inductive value : Type :=
| VUndefined
| VNull
| VBool (b : bool)
| VNum (n : Z)
| VStr (s : string)
| VArr (items : list value)
| VObj (fields : list (string * value))
| VError (message : string)
| VBoom (statusCode : Z) (cause : value).

(** A plain object, as its list of own properties in insertion order. *)
Definition JsObject : Type := list (string * value).

(** Property read [o.k]: [undefined] when the property is absent. *)
Fixpoint get (o : JsObject) (k : string) : value :=
  match o with
  | [] => VUndefined
  | (k', v) :: o' => if String.eqb k k' then v else get o' k
  end.

(** [v !== undefined] *)
Definition isDefined (v : value) : bool :=
  match v with
  | VUndefined => false
  | _ => true
  end.

Module Boom.
(** [Boom.badRequest(e)]: the library's constructor of a "400 Bad
    Request" error. *)
Definition badRequest (e : value) : value := VBoom 400 e.
End Boom.

(** ** Requests and responses *)

(** Opaque handles handed to the handlers by the route guard. *)
Variant IScopedClusterClient : Type := ScopedClusterClient (id : nat).
Variant MlClient : Type := MlClientHandle (id : nat).

(** The request as the handler sees it: [body] is the body the router has
    validated against the route's [validate.body] schema, typed as an object
    as [TypeOf<typeof ...Schema>] types it in the source. *)
Record Request : Type := {
  body : JsObject;
  headers : JsObject
}.

(** [{ client, mlClient, request, response }], the argument of a guarded
    handler.  The response factory [response] is the module below, with the
    two methods the handlers use. *)
Record HandlerArgs : Type := {
  client : IScopedClusterClient;
  mlClient : MlClient;
  request : Request
}.

(** The options [wrapError] produces for [response.customError]. *)
Record CustomHttpResponseOptions : Type := {
  statusCode : Z;
  errorBody : value
}.

Record KibanaResponse : Type := {
  status : Z;
  payload : value
}.

Module response.
(** [response.ok({ body })] *)
Definition ok (b : value) : KibanaResponse :=
  {| status := 200; payload := b |}.
(** [response.customError(options)] *)
Definition customError (o : CustomHttpResponseOptions) : KibanaResponse :=
  {| status := statusCode o; payload := errorBody o |}.
End response.

(** ** Calls into the models layer *)

(** A promise, seen at the moment it is awaited. *)
Inductive Promise : Type :=
| Fulfilled (v : value)
| Rejected (reason : value)
| Pending.

(** What calling a model function does: it throws before returning, or it
    returns a promise. *)
Inductive CallResult : Type :=
| SyncThrow (e : value)
| Returns (p : Promise).

(** The model functions the routes import, with the arguments they are
    applied to.  [estimateBucketSpanFactory] and
    [calculateModelMemoryLimitProvider] are curried in the source
    ([f(client)(body)]); one event stands for the whole application, and a
    throw of either stage is a [SyncThrow]. *)
Inductive ModelCall : Type :=
| estimateBucketSpanFactory (client : IScopedClusterClient) (formConfig : value)
| calculateModelMemoryLimitProvider
    (client : IScopedClusterClient) (mlClient : MlClient)
    (analysisConfig indexPattern query timeFieldName earliestMs latestMs
       allowMMLGreaterThanMax datafeedConfig : value)
| validateCardinality (client : IScopedClusterClient) (payload : value)
| validateJob (client : IScopedClusterClient) (mlClient : MlClient)
    (payload authHeader : value) (isSecurityDisabled : bool)
| validateDatafeedPreview (mlClient : MlClient) (authHeader job : value).

(** ** Handler programs *)

Inductive prog (A : Type) : Type :=
| Ret (a : A)
| Throw (e : value)
| Hang
| Call (c : ModelCall) (k : CallResult -> prog A).

Arguments Ret {A} a.
Arguments Throw {A} e.
Arguments Hang {A}.
Arguments Call {A} c k.

Fixpoint bind {A B : Type} (p : prog A) (f : A -> prog B) : prog B :=
  match p with
  | Ret a => f a
  | Throw e => Throw e
  | Hang => Hang
  | Call c k => Call c (fun r => bind (k r) f)
  end.

Notation "x <- p ;; q" := (bind p (fun x => q))
  (at level 61, p at next level, right associativity).

(** [try { p } catch (e) { h(e) }] *)
Fixpoint tryCatch {A : Type} (p : prog A) (h : value -> prog A) : prog A :=
  match p with
  | Ret a => Ret a
  | Throw e => h e
  | Hang => Hang
  | Call c k => Call c (fun r => tryCatch (k r) h)
  end.

(** Applying a model function: a synchronous throw propagates, otherwise
    the promise is handed back. *)
Definition call (c : ModelCall) : prog Promise :=
  Call c (fun r =>
    match r with
    | SyncThrow e => Throw e
    | Returns p => Ret p
    end).

(** [await p] *)
Definition await (p : Promise) : prog value :=
  match p with
  | Fulfilled v => Ret v
  | Rejected reason => Throw reason
  | Pending => Hang
  end.

(** [p.catch((error) => { x = f(error); })] for a local variable [x]: the
    derived promise and the value of [x] once it has settled.  The callback
    returns nothing, so a rejection becomes a fulfilment with
    [undefined]. *)
Definition catchAssign (p : Promise) (x : value) (f : value -> value)
  : Promise * value :=
  match p with
  | Fulfilled v => (Fulfilled v, x)
  | Rejected error => (Fulfilled VUndefined, f error)
  | Pending => (Pending, x)
  end.

(** How a handler ends. *)
Inductive outcome (A : Type) : Type :=
| Returned (a : A)
| Threw (e : value)
| NeverSettles.

Arguments Returned {A} a.
Arguments Threw {A} e.
Arguments NeverSettles {A}.

(** The models layer, as the answers it gives. *)
Definition Models : Type := ModelCall -> CallResult.

(** Running a handler program: the model calls it makes, in order, and its
    outcome. *)
Fixpoint run {A : Type} (env : Models) (p : prog A)
  : list ModelCall * outcome A :=
  match p with
  | Ret a => ([], Returned a)
  | Throw e => ([], Threw e)
  | Hang => ([], NeverSettles)
  | Call c k =>
      let '(calls, o) := run env (k (env c)) in (c :: calls, o)
  end.

(** Modelled from the spec: the platform router that turns what a handler
    does into an HTTP status is not among the sources.  Section 7 of the
    specification has thrown "hard" errors "mapped to HTTP 400/customError
    responses via a generic wrapper": a returned response carries its own
    status, a thrown Boom error the status it was built with.  Nothing is
    said of other thrown values. *)
Definition httpStatus (o : outcome KibanaResponse) : option Z :=
  match o with
  | Returned r => Some (status r)
  | Threw (VBoom code _) => Some code
  | Threw _ => None
  | NeverSettles => None
  end.

(** ** The route table *)

(** The body schemas of [./schemas/job_validation_schema], by name. *)
Variant Schema : Type :=
| estimateBucketSpanSchema
| modelMemoryLimitSchema
| validateCardinalitySchema
| validateJobSchema
| validateDatafeedPreviewSchema.

Variant Method : Type := GET | POST | PUT | DELETE.

Definition RequestHandler : Type := Request -> prog KibanaResponse.

Record RouteConfig : Type := {
  path : string;
  validate_body : Schema;
  options_tags : list string
}.

Record Route : Type := {
  method : Method;
  config : RouteConfig;
  handler : RequestHandler
}.

(** The router, as the routes registered on it so far. *)
Record Router : Type := { routes : list Route }.

Definition newRouter : Router := {| routes := [] |}.

(** [router.post(config, handler)] *)
Definition post (router : Router) (cfg : RouteConfig) (h : RequestHandler)
  : Router :=
  {| routes := routes router
                 ++ [ {| method := POST; config := cfg; handler := h |} ] |}.

(** [mlLicense], as far as the routes use it. *)
Record MlLicense : Type := { isSecurityEnabled : bool }.

(** [routeGuard], as far as the routes use it: [fullLicenseAPIGuard] turns
    a handler of [{ client, mlClient, request, response }] into a request
    handler. *)
Record RouteGuard : Type := {
  fullLicenseAPIGuard : (HandlerArgs -> prog KibanaResponse) -> RequestHandler
}.

Section Routes.

(** The two pure helpers the file imports: [wrapError] from
    [../client/error_wrapper] and [getAuthorizationHeader] from
    [../lib/request_authorization]. *)
Variable wrapError : value -> CustomHttpResponseOptions.
Variable getAuthorizationHeader : Request -> value.

(** The local helper [calculateModelMemoryLimit(client, mlClient, payload)]:
    it destructures the payload and applies the provider, with
    [undefined] in the seventh position. *)
Definition calculateModelMemoryLimit
    (client : IScopedClusterClient) (mlClient : MlClient)
    (payload : JsObject) : prog Promise :=
  let datafeedConfig := get payload "datafeedConfig" in
  let analysisConfig := get payload "analysisConfig" in
  let indexPattern := get payload "indexPattern" in
  let query := get payload "query" in
  let timeFieldName := get payload "timeFieldName" in
  let earliestMs := get payload "earliestMs" in
  let latestMs := get payload "latestMs" in
  call (calculateModelMemoryLimitProvider client mlClient
          analysisConfig indexPattern query timeFieldName
          earliestMs latestMs VUndefined datafeedConfig).

(** The sentinel the bucket-span route answers with when the estimation
    promise rejects: [{ error: true, message: error }]. *)
Definition errorSentinel (error : value) : value :=
  VObj [("error", VBool true); ("message", error)].

(** Handler of [/api/ml/validate/estimate_bucket_span]. *)
Definition estimateBucketSpanHandler (a : HandlerArgs)
  : prog KibanaResponse :=
  tryCatch
    (p <- call (estimateBucketSpanFactory (client a)
                  (VObj (body (request a)))) ;;
     let '(p', errorResp) := catchAssign p VUndefined errorSentinel in
     resp <- await p' ;;
     Ret (response.ok (if isDefined errorResp then errorResp else resp)))
    (fun e => Throw (Boom.badRequest e)).

(** Handler of [/api/ml/validate/calculate_model_memory_limit]. *)
Definition calculateModelMemoryLimitHandler (a : HandlerArgs)
  : prog KibanaResponse :=
  tryCatch
    (p <- calculateModelMemoryLimit (client a) (mlClient a)
            (body (request a)) ;;
     resp <- await p ;;
     Ret (response.ok resp))
    (fun e => Ret (response.customError (wrapError e))).

(** Handler of [/api/ml/validate/cardinality]. *)
Definition validateCardinalityHandler (a : HandlerArgs)
  : prog KibanaResponse :=
  tryCatch
    (p <- call (validateCardinality (client a) (VObj (body (request a)))) ;;
     resp <- await p ;;
     Ret (response.ok resp))
    (fun e => Ret (response.customError (wrapError e))).

(** Handler of [/api/ml/validate/job]. *)
Definition validateJobHandler (mlLicense : MlLicense) (a : HandlerArgs)
  : prog KibanaResponse :=
  tryCatch
    (p <- call (validateJob (client a) (mlClient a)
                  (VObj (body (request a)))
                  (getAuthorizationHeader (request a))
                  (Bool.eqb (isSecurityEnabled mlLicense) false)) ;;
     resp <- await p ;;
     Ret (response.ok resp))
    (fun e => Ret (response.customError (wrapError e))).

(** Handler of [/api/ml/validate/datafeed_preview]. *)
Definition validateDatafeedPreviewHandler (a : HandlerArgs)
  : prog KibanaResponse :=
  tryCatch
    (p <- call (validateDatafeedPreview (mlClient a)
                  (getAuthorizationHeader (request a))
                  (get (body (request a)) "job")) ;;
     resp <- await p ;;
     Ret (response.ok resp))
    (fun e => Ret (response.customError (wrapError e))).

(** [jobValidationRoutes({ router, mlLicense, routeGuard })]: the five
    registrations, in the order of the file. *)
Definition jobValidationRoutes
    (router : Router) (mlLicense : MlLicense) (routeGuard : RouteGuard)
  : Router :=
  let router :=
    post router
      {| path := "/api/ml/validate/estimate_bucket_span";
         validate_body := estimateBucketSpanSchema;
         options_tags := ["access:ml:canCreateJob"] |}
      (fullLicenseAPIGuard routeGuard estimateBucketSpanHandler) in
  let router :=
    post router
      {| path := "/api/ml/validate/calculate_model_memory_limit";
         validate_body := modelMemoryLimitSchema;
         options_tags := ["access:ml:canCreateJob"] |}
      (fullLicenseAPIGuard routeGuard calculateModelMemoryLimitHandler) in
  let router :=
    post router
      {| path := "/api/ml/validate/cardinality";
         validate_body := validateCardinalitySchema;
         options_tags := ["access:ml:canCreateJob"] |}
      (fullLicenseAPIGuard routeGuard validateCardinalityHandler) in
  let router :=
    post router
      {| path := "/api/ml/validate/job";
         validate_body := validateJobSchema;
         options_tags := ["access:ml:canCreateJob"] |}
      (fullLicenseAPIGuard routeGuard (validateJobHandler mlLicense)) in
  post router
    {| path := "/api/ml/validate/datafeed_preview";
       validate_body := validateDatafeedPreviewSchema;
       options_tags := ["access:ml:canCreateJob"] |}
    (fullLicenseAPIGuard routeGuard validateDatafeedPreviewHandler).

(** The handlers passed to the guard, in registration order. *)
Definition guardedHandlers (mlLicense : MlLicense)
  : list (HandlerArgs -> prog KibanaResponse) :=
  [ estimateBucketSpanHandler;
    calculateModelMemoryLimitHandler;
    validateCardinalityHandler;
    validateJobHandler mlLicense;
    validateDatafeedPreviewHandler ].

(** The routes the file registers, on a router that had none. *)
Definition registeredRoutes (mlLicense : MlLicense) (routeGuard : RouteGuard)
  : list Route :=
  routes (jobValidationRoutes newRouter mlLicense routeGuard).

End Routes.

(** Modelled from the spec: [calculateModelMemoryLimitProvider] lives in
    [../models/calculate_model_memory_limit], which is not among the
    sources.  The specification gives its result as
    [{modelMemoryLimit: string}] (and the route's documentation as
    [@apiSuccess {String} modelMemoryLimit]): an object with a string
    property of that name. *)
Definition hasModelMemoryLimit (v : value) : bool :=
  match v with
  | VObj fields =>
      match get fields "modelMemoryLimit" with
      | VStr _ => true
      | _ => false
      end
  | _ => false
  end.

(** A guard lets a request through: it hands the request, with the clients
    it has set up, to the handler it wraps. *)
Definition guardPasses (g : RouteGuard) (req : Request)
    (cl : IScopedClusterClient) (ml : MlClient) : Prop :=
  forall h,
    fullLicenseAPIGuard g h req
    = h {| client := cl; mlClient := ml; request := req |}.

(** A guard turns a request down: it answers [resp] by itself, whatever the
    handler it wraps. *)
Definition guardRefuses (g : RouteGuard) (req : Request) (resp : KibanaResponse)
  : Prop :=
  forall h, fullLicenseAPIGuard g h req = Ret resp.

(** ** Sample instances *)

(** Concrete arguments at which the statements below are exercised. *)
Module Sample.

(** A stand-in for [wrapError]: the status of a Boom error, 500
    otherwise, with the error as message. *)
Definition wrapError (e : value) : CustomHttpResponseOptions :=
  {| statusCode := match e with VBoom code _ => code | _ => 500 end;
     errorBody := VObj [("message", e)] |}.

(** A stand-in for [getAuthorizationHeader]: the request's
    [authorization] header under [headers], or an empty object. *)
Definition getAuthorizationHeader (req : Request) : value :=
  match get (headers req) "authorization" with
  | VUndefined => VObj []
  | v => VObj [("headers", VObj [("es-secondary-authorization", v)])]
  end.

Definition theRequest : Request :=
  {| body := [("index", VStr "logs-*");
              ("timeField", VStr "@timestamp");
              ("analysisConfig", VObj [("bucket_span", VStr "15m")]);
              ("indexPattern", VStr "logs-*");
              ("job", VObj [("job_id", VStr "j1")])];
     headers := [("authorization", VStr "Basic abc")] |}.

Definition theArgs : HandlerArgs :=
  {| client := ScopedClusterClient 1;
     mlClient := MlClientHandle 1;
     request := theRequest |}.

(** What the guard below answers when it turns a request down. *)
Definition forbidden : KibanaResponse :=
  {| status := 403; payload := VUndefined |}.

(** A guard checking a licence flag: the handler runs only when the flag
    is set; otherwise the guard answers by itself. *)
Definition licenseGuard (isFullLicense : bool) : RouteGuard :=
  {| fullLicenseAPIGuard := fun h req =>
       if isFullLicense
       then h {| client := ScopedClusterClient 1;
                 mlClient := MlClientHandle 1;
                 request := req |}
       else Ret forbidden |}.

(** The cardinality route as registered behind a guard. *)
Definition cardinalityRoute (g : RouteGuard) : Route :=
  {| method := POST;
     config := {| path := "/api/ml/validate/cardinality";
                  validate_body := validateCardinalitySchema;
                  options_tags := ["access:ml:canCreateJob"] |};
     handler := fullLicenseAPIGuard g (validateCardinalityHandler wrapError) |}.

(** The bucket-span route as registered behind a guard. *)
Definition estimateBucketSpanRoute (g : RouteGuard) : Route :=
  {| method := POST;
     config := {| path := "/api/ml/validate/estimate_bucket_span";
                  validate_body := estimateBucketSpanSchema;
                  options_tags := ["access:ml:canCreateJob"] |};
     handler := fullLicenseAPIGuard g estimateBucketSpanHandler |}.

(** Models layers: every promise rejects; every call throws; every call
    succeeds with a memory estimation; validation depends on the
    security flag. *)
Definition rejecting : Models :=
  fun _ => Returns (Rejected (VStr "Unable to estimate bucket span")).
Definition throwing : Models :=
  fun _ => SyncThrow (VError "Invalid formConfig").
Definition estimating : Models :=
  fun _ => Returns (Fulfilled (VObj [("modelMemoryLimit", VStr "12MB")])).
Definition securityAware : Models :=
  fun c =>
    match c with
    | validateJob _ _ _ _ true => Returns (Fulfilled (VArr [VStr "skipped"]))
    | _ => Returns (Fulfilled (VArr []))
    end.

End Sample.

(** ** The detection rule "Disable Windows Firewall Rules via Netsh" *)

Module Eql.

(** An event document: each field with its values (a single-valued field
    has one). *)
Definition Event : Type := list (string * list string).

Fixpoint fieldValues (ev : Event) (f : string) : list string :=
  match ev with
  | [] => []
  | (f', vs) :: ev' => if String.eqb f f' then vs else fieldValues ev' f
  end.

(** Conditions of the fragment of EQL the rule is written in. *)
Inductive expr : Type :=
| InSet (field : string) (values : list string)
| Like (field : string) (literal : string)
| And (l r : expr)
| Or (l r : expr).

Record Query : Type := { category : string; condition : expr }.

Inductive token : Type :=
| TIdent (s : string)
| TString (s : string)
| TWhere | TIn | TColon | TComma | TLParen | TRParen | TAnd | TOr.

(** ["a", "b", ... )] after the opening parenthesis of an [in] list. *)
Fixpoint parseStrings (ts : list token) : option (list string * list token) :=
  match ts with
  | TString s :: TRParen :: rest => Some ([s], rest)
  | TString s :: TComma :: rest =>
      match parseStrings rest with
      | Some (ss, rest') => Some (s :: ss, rest')
      | None => None
      end
  | _ => None
  end.

Variant level : Type := LOr | LAnd | LPrimary.

(** Recursive descent with the usual precedence: a disjunction is made of
    conjunctions, a conjunction of primaries, and only parentheses lead
    from a primary back to a disjunction.  Chains nest to the right;
    [and] and [or] being associative, this does not change what a
    condition matches. *)
Fixpoint parse (fuel : nat) (l : level) (ts : list token)
  : option (expr * list token) :=
  match fuel with
  | O => None
  | S n =>
      match l with
      | LOr =>
          match parse n LAnd ts with
          | Some (e, TOr :: rest) =>
              match parse n LOr rest with
              | Some (e', rest') => Some (Or e e', rest')
              | None => None
              end
          | r => r
          end
      | LAnd =>
          match parse n LPrimary ts with
          | Some (e, TAnd :: rest) =>
              match parse n LAnd rest with
              | Some (e', rest') => Some (And e e', rest')
              | None => None
              end
          | r => r
          end
      | LPrimary =>
          match ts with
          | TLParen :: rest =>
              match parse n LOr rest with
              | Some (e, TRParen :: rest') => Some (e, rest')
              | _ => None
              end
          | TIdent f :: TColon :: TString s :: rest => Some (Like f s, rest)
          | TIdent f :: TIn :: TLParen :: rest =>
              match parseStrings rest with
              | Some (ss, rest') => Some (InSet f ss, rest')
              | None => None
              end
          | _ => None
          end
      end
  end.

(** [<category> where <condition>], with nothing left over. *)
Definition parseQuery (ts : list token) : option Query :=
  match ts with
  | TIdent c :: TWhere :: rest =>
      match parse (3 * List.length rest) LOr rest with
      | Some (e, []) => Some {| category := c; condition := e |}
      | _ => None
      end
  | _ => None
  end.

Definition lowerAscii (a : ascii) : ascii :=
  let n := nat_of_ascii a in
  if andb (Nat.leb 65 n) (Nat.leb n 90) then ascii_of_nat (n + 32) else a.

Fixpoint lower (s : string) : string :=
  match s with
  | EmptyString => EmptyString
  | String a s' => String (lowerAscii a) (lower s')
  end.

(** [f in (...)] compares exactly; [f : "lit"] ignores case.  The
    literals of the rule contain no wildcard, so [:] is equality up to
    case here.  A condition on a multi-valued field holds when one of the
    values satisfies it. *)
Fixpoint eval (e : expr) (ev : Event) : bool :=
  match e with
  | InSet f vs =>
      existsb (fun v => existsb (String.eqb v) vs) (fieldValues ev f)
  | Like f lit =>
      existsb (fun v => String.eqb (lower v) (lower lit)) (fieldValues ev f)
  | And l r => andb (eval l ev) (eval r ev)
  | Or l r => orb (eval l ev) (eval r ev)
  end.

Definition matches (q : Query) (ev : Event) : bool :=
  andb (existsb (String.eqb (category q)) (fieldValues ev "event.category"))
       (eval (condition q) ev).

(** [contains s sub]: [sub] occurs in [s]. *)
Fixpoint contains (s sub : string) : bool :=
  orb (String.prefix sub s)
      match s with
      | EmptyString => false
      | String _ s' => contains s' sub
      end.

End Eql.

Module NetshRule.
Import Eql.

Definition name : string := "Disable Windows Firewall Rules via Netsh".

Definition description : string :=
  "Identifies use of the netsh.exe to disable or weaken the local firewall. Attackers will use this command line tool to disable the firewall during troubleshooting or to enable network mobility.".

Definition language : string := "eql".

(** The [query] field, token by token. *)
Definition query : list token :=
  [ TIdent "process"; TWhere;
    TIdent "event.type"; TIn; TLParen;
      TString "start"; TComma; TString "process_started"; TRParen; TAnd;
    TIdent "process.name"; TColon; TString "netsh.exe"; TAnd;
    TLParen;
      TIdent "process.args"; TColon; TString "disable"; TAnd;
      TIdent "process.args"; TColon; TString "firewall"; TAnd;
      TIdent "process.args"; TColon; TString "set";
    TRParen; TOr;
    TLParen;
      TIdent "process.args"; TColon; TString "advfirewall"; TAnd;
      TIdent "process.args"; TColon; TString "off"; TAnd;
      TIdent "process.args"; TColon; TString "state";
    TRParen ].

(** Whether the rule fires on an event. *)
Definition fires (ev : Event) : bool :=
  match parseQuery query with
  | Some q => matches q ev
  | None => false
  end.

(** The second parenthesised group of the query. *)
Definition advfirewallOff : expr :=
  And (Like "process.args" "advfirewall")
      (And (Like "process.args" "off") (Like "process.args" "state")).

(** A PowerShell process whose arguments happen to hold the three
    words. *)
Definition powershellEvent : Event :=
  [ ("event.category", ["process"]);
    ("event.type", ["end"]);
    ("process.name", ["powershell.exe"]);
    ("process.args", ["powershell.exe"; "Set-Content"; "notes.txt";
                      "advfirewall"; "state"; "off"]) ].

End NetshRule.

(** ** Further instances and vocabulary *)

(** The properties the local helper [calculateModelMemoryLimit] destructures
    from its payload. *)
Definition modelMemoryLimitFields : list string :=
  [ "datafeedConfig"; "analysisConfig"; "indexPattern"; "query";
    "timeFieldName"; "earliestMs"; "latestMs" ].

(** A models layer whose every promise is fulfilled with [v]. *)
Definition fulfillingWith (v : value) : Models :=
  fun _ => Returns (Fulfilled v).

(** A models layer whose promises never settle. *)
Definition stalling : Models := fun _ => Returns Pending.

(** Some value of field [f] of the event equals [lit] up to case: the
    reading of [f : "lit"] as a proposition. *)
Definition fieldIs (ev : Eql.Event) (f lit : string) : Prop :=
  exists v, In v (Eql.fieldValues ev f) /\ Eql.lower v = Eql.lower lit.

(** A netsh process start that switches the firewall off through the older
    [firewall set opmode disable] syntax, with the upper-case image name
    Windows often reports. *)
Definition netshEvent : Eql.Event :=
  [ ("event.category", ["process"]);
    ("event.type", ["start"]);
    ("process.name", ["NETSH.EXE"]);
    ("process.args", ["netsh"; "firewall"; "set"; "opmode"; "disable"]) ].

(** ** The "Add monitor" breadcrumb of the synthetics plugin *)

Module Synthetics.




Section Breadcrumbs.

(** [i18n.translate(id, { defaultMessage })], and the two constants of
    [common/constants] the file imports. *)
Variable translate : string -> string -> string.
Variable MONITOR_ADD_ROUTE : string.
Variable SYNTHETICS_PLUGIN_ID : string.



End Breadcrumbs.



End Synthetics.

(** * Properties of the routes *)

Section RouteFacts.

Variable wrapError : value -> CustomHttpResponseOptions.
Variable getAuthorizationHeader : Request -> value.

Let routesOf := registeredRoutes wrapError getAuthorizationHeader.

(** The common shape [try { resp = await f(...); return ok(resp) }
    catch (e) { h(e) }], run against a models layer. *)
Lemma run_call_await (c : ModelCall) (h : value -> prog KibanaResponse)
    (env : Models) :
  run env (tryCatch (p <- call c ;; resp <- await p ;;
                     Ret (response.ok resp)) h)
  = match env c with
    | Returns (Fulfilled v) => ([c], Returned (response.ok v))
    | Returns Pending => ([c], NeverSettles)
    | SyncThrow e | Returns (Rejected e) =>
        let '(calls, o) := run env (h e) in (c :: calls, o)
    end.
Proof.
  simpl. destruct (env c) as [e | [v | e | ]]; reflexivity.
Qed.

(** The bucket-span handler, case by case on what the estimation does. *)
Lemma run_estimateBucketSpanHandler (a : HandlerArgs) (env : Models) :
  let c := estimateBucketSpanFactory (client a) (VObj (body (request a))) in
  run env (estimateBucketSpanHandler a)
  = ([c],
     match env c with
     | SyncThrow e => Threw (Boom.badRequest e)
     | Returns (Fulfilled v) => Returned (response.ok v)
     | Returns (Rejected error) =>
         Returned (response.ok (errorSentinel error))
     | Returns Pending => NeverSettles
     end).
Proof.
  unfold estimateBucketSpanHandler. simpl.
  destruct (env _) as [e | [v | e | ]]; reflexivity.
Qed.

(** Registering on any router appends the five routes. *)
Lemma jobValidationRoutes_appends (router : Router) (lic : MlLicense)
    (g : RouteGuard) :
  routes (jobValidationRoutes wrapError getAuthorizationHeader router lic g)
  = (routes router ++ routesOf lic g)%list.
Proof.
  unfold routesOf, registeredRoutes, jobValidationRoutes, post. simpl.
  repeat rewrite <- app_assoc. reflexivity.
Qed.

(** The registered handlers are the guard applied to the five handlers of
    the file. *)
Lemma registered_handlers (lic : MlLicense) (g : RouteGuard) :
  map handler (routesOf lic g)
  = map (fullLicenseAPIGuard g)
        (guardedHandlers wrapError getAuthorizationHeader lic).
Proof. reflexivity. Qed.

Lemma registered_paths (lic : MlLicense) (g : RouteGuard) :
  map (fun r => path (config r)) (routesOf lic g)
  = [ "/api/ml/validate/estimate_bucket_span";
      "/api/ml/validate/calculate_model_memory_limit";
      "/api/ml/validate/cardinality";
      "/api/ml/validate/job";
      "/api/ml/validate/datafeed_preview" ].
Proof. reflexivity. Qed.

(** ** Bucket-span estimation: soft and hard failures *)

(** C1.  When the estimation promise of a request to
    [/api/ml/validate/estimate_bucket_span] rejects with [error], the
    handler calls the estimation once and returns [response.ok]: an HTTP
    200 response whose body is the sentinel
    [{ error: true, message: error }], not an HTTP error. *)
Theorem estimate_bucket_span_soft_failure
    (a : HandlerArgs) (env : Models) (error : value) :
  env (estimateBucketSpanFactory (client a) (VObj (body (request a))))
    = Returns (Rejected error) ->
  exists r,
    run env (estimateBucketSpanHandler a)
      = ([estimateBucketSpanFactory (client a) (VObj (body (request a)))],
         Returned r)
    /\ status r = 200
    /\ payload r = VObj [("error", VBool true); ("message", error)]
    /\ httpStatus (snd (run env (estimateBucketSpanHandler a))) = Some 200.
Proof.
  intros Hrej.
  exists (response.ok (errorSentinel error)).
  rewrite run_estimateBucketSpanHandler. cbv zeta. rewrite Hrej.
  repeat split.
Qed.

(** C2.  When running the estimation code throws [e] (for instance on a
    malformed payload), the handler of
    [/api/ml/validate/estimate_bucket_span] throws [Boom.badRequest(e)],
    which the platform answers as HTTP 400. *)
Theorem estimate_bucket_span_hard_failure
    (a : HandlerArgs) (env : Models) (e : value) :
  env (estimateBucketSpanFactory (client a) (VObj (body (request a))))
    = SyncThrow e ->
  run env (estimateBucketSpanHandler a)
    = ([estimateBucketSpanFactory (client a) (VObj (body (request a)))],
       Threw (Boom.badRequest e))
  /\ httpStatus (snd (run env (estimateBucketSpanHandler a))) = Some 400.
Proof.
  intros Hthrow.
  rewrite run_estimateBucketSpanHandler. cbv zeta. rewrite Hthrow.
  split; reflexivity.
Qed.

(** C8.  In the bucket-span handler every rejection of the estimation
    promise, whatever the reason, ends in the HTTP 200 sentinel response,
    whose body is the object [{ error: true, message: reason }];
    the handler throws (the [Boom.badRequest] branch, HTTP 400) only when
    the estimation call itself threw before handing back its promise; once
    a promise has been handed back, the answer is never an HTTP 400. *)
Theorem estimate_bucket_span_catch_split (a : HandlerArgs) (env : Models) :
  let c := estimateBucketSpanFactory (client a) (VObj (body (request a))) in
  let result := snd (run env (estimateBucketSpanHandler a)) in
  (forall reason, env c = Returns (Rejected reason) ->
     result
     = Returned {| status := 200;
                   payload := VObj [("error", VBool true);
                                    ("message", reason)] |}
     /\ httpStatus result = Some 200)
  /\ (forall x, result = Threw x ->
       exists e, env c = SyncThrow e /\ x = Boom.badRequest e)
  /\ (httpStatus result = Some 400 -> exists e, env c = SyncThrow e)
  /\ (forall p, env c = Returns p -> httpStatus result <> Some 400).
Proof.
  intros c result. subst result.
  rewrite run_estimateBucketSpanHandler. fold c. cbn [snd].
  split; [ | split; [ | split]].
  - intros reason Hrej. rewrite Hrej. split; reflexivity.
  - intros x Hx. destruct (env c) as [e | [v | e | ]]; try discriminate.
    exists e. split; [reflexivity | congruence].
  - intros Hs. destruct (env c) as [e | [v | e | ]]; try discriminate.
    exists e. reflexivity.
  - intros p Hp. rewrite Hp. destruct p; discriminate.
Qed.

(** ** The route table *)

(** C3.  The file registers five routes, at the paths
    [estimate_bucket_span], [calculate_model_memory_limit], [cardinality],
    [job] and [datafeed_preview] under [/api/ml/validate/], and each of
    them has the tag [access:ml:canCreateJob] among its
    [options.tags]. *)
Theorem every_route_requires_canCreateJob
    (router : Router) (lic : MlLicense) (g : RouteGuard) :
  exists added,
    routes (jobValidationRoutes wrapError getAuthorizationHeader
              router lic g)
      = (routes router ++ added)%list
    /\ map (fun r => path (config r)) added
       = [ "/api/ml/validate/estimate_bucket_span";
           "/api/ml/validate/calculate_model_memory_limit";
           "/api/ml/validate/cardinality";
           "/api/ml/validate/job";
           "/api/ml/validate/datafeed_preview" ]
    /\ Forall (fun r => In "access:ml:canCreateJob" (options_tags (config r)))
              added.
Proof.
  exists (routesOf lic g). split; [apply jobValidationRoutes_appends | ].
  split; [reflexivity | ].
  repeat constructor.
Qed.

(** C4, as amended.  For every registered route other than
    [estimate_bucket_span] and every request the guard lets through, the
    handler makes one model call, and when that call throws [e] or its
    promise rejects with [e] the handler returns
    [response.customError(wrapError(e))]. *)
Theorem other_routes_surface_errors_via_wrapError
    (lic : MlLicense) (g : RouteGuard) (r : Route) (req : Request)
    (cl : IScopedClusterClient) (ml : MlClient) (env : Models) :
  In r (registeredRoutes wrapError getAuthorizationHeader lic g) ->
  path (config r) <> "/api/ml/validate/estimate_bucket_span" ->
  guardPasses g req cl ml ->
  exists c,
    fst (run env (handler r req)) = [c]
    /\ forall e,
         env c = SyncThrow e \/ env c = Returns (Rejected e) ->
         snd (run env (handler r req))
         = Returned (response.customError (wrapError e)).
Proof.
  intros Hin Hpath Hpass.
  unfold registeredRoutes in Hin. simpl in Hin.
  destruct Hin as [<- | [<- | [<- | [<- | [<- | []]]]]];
    cbn [handler config path] in *; try congruence;
    rewrite Hpass;
    unfold calculateModelMemoryLimitHandler, calculateModelMemoryLimit,
      validateCardinalityHandler, validateJobHandler,
      validateDatafeedPreviewHandler;
    cbv zeta; rewrite run_call_await;
    match goal with
    | |- context [env ?c] =>
        exists c; split;
        [ destruct (env c) as [e | [v | e | ]]; reflexivity
        | intros e [He | He]; rewrite He; reflexivity ]
    end.
Qed.

(** C5.  When the model call of a request to
    [/api/ml/validate/calculate_model_memory_limit] succeeds with a result
    of the shape the provider promises, the handler returns HTTP 200 with
    that result as body, an object with a string [modelMemoryLimit]. *)
Theorem calculate_model_memory_limit_ok
    (a : HandlerArgs) (env : Models) (v : value) :
  let b := body (request a) in
  let c := calculateModelMemoryLimitProvider (client a) (mlClient a)
             (get b "analysisConfig") (get b "indexPattern")
             (get b "query") (get b "timeFieldName")
             (get b "earliestMs") (get b "latestMs")
             VUndefined (get b "datafeedConfig") in
  env c = Returns (Fulfilled v) ->
  hasModelMemoryLimit v = true ->
  exists r,
    run env (calculateModelMemoryLimitHandler wrapError a) = ([c], Returned r)
    /\ status r = 200
    /\ payload r = v
    /\ hasModelMemoryLimit (payload r) = true.
Proof.
  intros b c Hok Hshape. exists (response.ok v).
  unfold calculateModelMemoryLimitHandler, calculateModelMemoryLimit.
  cbv zeta. rewrite run_call_await. fold b. fold c. rewrite Hok.
  repeat split. exact Hshape.
Qed.

(** C6.  The handler of [/api/ml/validate/job] reads
    [mlLicense.isSecurityEnabled()]: it passes
    [isSecurityEnabled() === false] to [validateJob], so that a models
    layer can answer the same request differently under the two values of
    the flag; the other four registered routes are the same whatever the
    licence object. *)
Theorem validate_job_depends_on_security_flag :
  (forall lic a env,
      fst (run env (validateJobHandler wrapError getAuthorizationHeader
                      lic a))
      = [validateJob (client a) (mlClient a) (VObj (body (request a)))
           (getAuthorizationHeader (request a))
           (negb (isSecurityEnabled lic))])
  /\ (exists env a,
        snd (run env (validateJobHandler wrapError getAuthorizationHeader
                        {| isSecurityEnabled := true |} a))
        <> snd (run env (validateJobHandler wrapError getAuthorizationHeader
                          {| isSecurityEnabled := false |} a)))
  /\ (forall lic1 lic2 g,
        Forall2 (fun r1 r2 =>
                   path (config r1) = path (config r2)
                   /\ (path (config r1) <> "/api/ml/validate/job" -> r1 = r2))
          (registeredRoutes wrapError getAuthorizationHeader lic1 g)
          (registeredRoutes wrapError getAuthorizationHeader lic2 g)).
Proof.
  split; [ | split].
  - intros lic a env. unfold validateJobHandler.
    rewrite run_call_await.
    replace (Bool.eqb (isSecurityEnabled lic) false)
      with (negb (isSecurityEnabled lic))
      by (destruct (isSecurityEnabled lic); reflexivity).
    destruct (env _) as [e | [v | e | ]]; reflexivity.
  - exists Sample.securityAware, Sample.theArgs.
    unfold validateJobHandler. rewrite !run_call_await.
    cbn. discriminate.
  - intros lic1 lic2 g. unfold registeredRoutes. simpl.
    repeat constructor; cbn [config path]; congruence.
Qed.

(** C7.  Every registered handler is a pass-through: on a request the
    guard lets through it makes exactly one model call, on the validated
    body or on fields of it, and when the promise of that call is
    fulfilled with [v] it returns [response.ok] with [v] itself as body
    (HTTP 200). *)
Theorem handlers_pass_through
    (lic : MlLicense) (g : RouteGuard) (req : Request)
    (cl : IScopedClusterClient) (ml : MlClient) (env : Models) :
  guardPasses g req cl ml ->
  let b := body req in
  Forall2
    (fun r c =>
       fst (run env (handler r req)) = [c]
       /\ forall v, env c = Returns (Fulfilled v) ->
            snd (run env (handler r req))
            = Returned {| status := 200; payload := v |})
    (registeredRoutes wrapError getAuthorizationHeader lic g)
    [ estimateBucketSpanFactory cl (VObj b);
      calculateModelMemoryLimitProvider cl ml
        (get b "analysisConfig") (get b "indexPattern") (get b "query")
        (get b "timeFieldName") (get b "earliestMs") (get b "latestMs")
        VUndefined (get b "datafeedConfig");
      validateCardinality cl (VObj b);
      validateJob cl ml (VObj b) (getAuthorizationHeader req)
        (negb (isSecurityEnabled lic));
      validateDatafeedPreview ml (getAuthorizationHeader req)
        (get b "job") ].
Proof.
  intros Hpass b. unfold guardPasses in Hpass.
  unfold registeredRoutes. simpl.
  repeat match goal with
         | |- Forall2 _ (_ :: _) _ =>
             apply Forall2_cons; [ cbn [handler]; rewrite Hpass | ]
         end.
  - rewrite run_estimateBucketSpanHandler. cbv zeta.
    cbn [client request fst snd]. fold b.
    split; [reflexivity | ]. intros v Hv. rewrite Hv. reflexivity.
  - unfold calculateModelMemoryLimitHandler, calculateModelMemoryLimit.
    cbv zeta. rewrite run_call_await. cbn [client mlClient request].
    fold b. split.
    + destruct (env _) as [e | [v | e | ]]; reflexivity.
    + intros v Hv. rewrite Hv. reflexivity.
  - unfold validateCardinalityHandler. rewrite run_call_await.
    cbn [client mlClient request]. fold b. split.
    + destruct (env _) as [e | [v | e | ]]; reflexivity.
    + intros v Hv. rewrite Hv. reflexivity.
  - unfold validateJobHandler. rewrite run_call_await.
    cbn [client mlClient request]. fold b.
    replace (Bool.eqb (isSecurityEnabled lic) false)
      with (negb (isSecurityEnabled lic))
      by (destruct (isSecurityEnabled lic); reflexivity).
    split.
    + destruct (env _) as [e | [v | e | ]]; reflexivity.
    + intros v Hv. rewrite Hv. reflexivity.
  - unfold validateDatafeedPreviewHandler. rewrite run_call_await.
    cbn [client mlClient request]. fold b. split.
    + destruct (env _) as [e | [v | e | ]]; reflexivity.
    + intros v Hv. rewrite Hv. reflexivity.
  - constructor.
Qed.

(** C9.  Each of the five registered handlers is
    [routeGuard.fullLicenseAPIGuard] applied to a handler of the file, so
    for a request the guard turns down no handler body runs: no model
    function is called and the answer is the guard's own. *)
Theorem every_handler_behind_fullLicenseAPIGuard
    (lic : MlLicense) (g : RouteGuard) :
  let table := registeredRoutes wrapError getAuthorizationHeader lic g in
  List.length table = 5%nat
  /\ map handler table
     = map (fullLicenseAPIGuard g)
         [ estimateBucketSpanHandler;
           calculateModelMemoryLimitHandler wrapError;
           validateCardinalityHandler wrapError;
           validateJobHandler wrapError getAuthorizationHeader lic;
           validateDatafeedPreviewHandler wrapError getAuthorizationHeader ]
  /\ forall req resp,
       guardRefuses g req resp ->
       forall r env,
         In r table ->
         run env (handler r req) = ([], Returned resp).
Proof.
  intros table. split; [reflexivity | ]. split; [reflexivity | ].
  intros req resp Hrefuse r env Hin.
  apply (in_map handler) in Hin.
  subst table. rewrite registered_handlers in Hin.
  apply in_map_iff in Hin. destruct Hin as [h [<- _]].
  rewrite Hrefuse. reflexivity.
Qed.

End RouteFacts.

(** ** The statements at the sample instances *)

Lemma estimate_bucket_span_soft_failure_witness :
  Sample.rejecting
    (estimateBucketSpanFactory (client Sample.theArgs)
       (VObj (body (request Sample.theArgs))))
  = Returns (Rejected (VStr "Unable to estimate bucket span"))
  /\ exists r,
       run Sample.rejecting (estimateBucketSpanHandler Sample.theArgs)
       = ([estimateBucketSpanFactory (client Sample.theArgs)
             (VObj (body (request Sample.theArgs)))],
          Returned r)
       /\ status r = 200
       /\ payload r
          = VObj [("error", VBool true);
                  ("message", VStr "Unable to estimate bucket span")]
       /\ httpStatus
            (snd (run Sample.rejecting
                    (estimateBucketSpanHandler Sample.theArgs)))
          = Some 200.
Proof.
  split; [reflexivity | ].
  apply (estimate_bucket_span_soft_failure Sample.theArgs Sample.rejecting).
  reflexivity.
Defined.

Lemma estimate_bucket_span_hard_failure_witness :
  Sample.throwing
    (estimateBucketSpanFactory (client Sample.theArgs)
       (VObj (body (request Sample.theArgs))))
  = SyncThrow (VError "Invalid formConfig")
  /\ run Sample.throwing (estimateBucketSpanHandler Sample.theArgs)
     = ([estimateBucketSpanFactory (client Sample.theArgs)
           (VObj (body (request Sample.theArgs)))],
        Threw (VBoom 400 (VError "Invalid formConfig")))
  /\ httpStatus
       (snd (run Sample.throwing (estimateBucketSpanHandler Sample.theArgs)))
     = Some 400.
Proof.
  split; [reflexivity | ].
  apply (estimate_bucket_span_hard_failure Sample.theArgs Sample.throwing).
  reflexivity.
Defined.

Lemma estimate_bucket_span_catch_split_witness :
  (snd (run Sample.rejecting (estimateBucketSpanHandler Sample.theArgs))
   = Returned
       {| status := 200;
          payload := VObj [("error", VBool true);
                           ("message",
                            VStr "Unable to estimate bucket span")] |}
   /\ httpStatus
        (snd (run Sample.rejecting (estimateBucketSpanHandler Sample.theArgs)))
      = Some 200)
  /\ exists e,
       Sample.throwing
         (estimateBucketSpanFactory (client Sample.theArgs)
            (VObj (body (request Sample.theArgs))))
       = SyncThrow e.
Proof.
  split.
  - apply (proj1 (estimate_bucket_span_catch_split
                    Sample.theArgs Sample.rejecting)).
    reflexivity.
  - apply (proj1 (proj2 (proj2 (estimate_bucket_span_catch_split
                                  Sample.theArgs Sample.throwing)))).
    reflexivity.
Defined.

(** C4 as stated fails on the bucket-span route: when the estimation throws,
    its handler throws a Boom error; it does not return
    [response.customError(wrapError(e))]. *)
Lemma estimate_bucket_span_bypasses_wrapError :
  let table :=
    registeredRoutes Sample.wrapError Sample.getAuthorizationHeader
      {| isSecurityEnabled := true |} (Sample.licenseGuard true) in
  let r := Sample.estimateBucketSpanRoute (Sample.licenseGuard true) in
  let e := VError "Invalid formConfig" in
  In r table
  /\ run Sample.throwing (handler r Sample.theRequest)
     = ([estimateBucketSpanFactory (ScopedClusterClient 1)
           (VObj (body Sample.theRequest))],
        Threw (VBoom 400 e))
  /\ snd (run Sample.throwing (handler r Sample.theRequest))
     <> Returned (response.customError (Sample.wrapError e))
  /\ ~ (forall r', In r' table ->
         forall c e',
           fst (run Sample.throwing (handler r' Sample.theRequest)) = [c] ->
           Sample.throwing c = SyncThrow e' ->
           snd (run Sample.throwing (handler r' Sample.theRequest))
           = Returned (response.customError (Sample.wrapError e'))).
Proof.
  intros table r e.
  assert (Hin : In r table) by (left; reflexivity).
  split; [exact Hin | ].
  split; [reflexivity | ].
  split; [discriminate | ].
  intros Hall.
  specialize (Hall r Hin _ e eq_refl eq_refl).
  discriminate Hall.
Defined.

Lemma other_routes_surface_errors_via_wrapError_witness :
  let g := Sample.licenseGuard true in
  let r := Sample.cardinalityRoute g in
  exists c,
    fst (run Sample.throwing (handler r Sample.theRequest)) = [c]
    /\ forall e,
         Sample.throwing c = SyncThrow e
         \/ Sample.throwing c = Returns (Rejected e) ->
         snd (run Sample.throwing (handler r Sample.theRequest))
         = Returned (response.customError (Sample.wrapError e)).
Proof.
  intros g r.
  apply (other_routes_surface_errors_via_wrapError
           Sample.wrapError Sample.getAuthorizationHeader
           {| isSecurityEnabled := true |} g r Sample.theRequest
           (ScopedClusterClient 1) (MlClientHandle 1) Sample.throwing).
  - right; right; left; reflexivity.
  - apply String.eqb_neq. reflexivity.
  - intro h. reflexivity.
Defined.

Lemma calculate_model_memory_limit_ok_witness :
  exists r,
    run Sample.estimating
      (calculateModelMemoryLimitHandler Sample.wrapError Sample.theArgs)
    = ([calculateModelMemoryLimitProvider
          (ScopedClusterClient 1) (MlClientHandle 1)
          (VObj [("bucket_span", VStr "15m")]) (VStr "logs-*")
          VUndefined VUndefined VUndefined VUndefined VUndefined VUndefined],
       Returned r)
    /\ status r = 200
    /\ payload r = VObj [("modelMemoryLimit", VStr "12MB")]
    /\ hasModelMemoryLimit (payload r) = true.
Proof.
  apply (calculate_model_memory_limit_ok
           Sample.wrapError Sample.theArgs Sample.estimating
           (VObj [("modelMemoryLimit", VStr "12MB")]));
    reflexivity.
Defined.

Lemma handlers_pass_through_witness :
  Forall
    (fun r =>
       exists c,
         fst (run Sample.estimating (handler r Sample.theRequest)) = [c]
         /\ snd (run Sample.estimating (handler r Sample.theRequest))
            = Returned (response.ok
                          (VObj [("modelMemoryLimit", VStr "12MB")])))
    (registeredRoutes Sample.wrapError Sample.getAuthorizationHeader
       {| isSecurityEnabled := true |} (Sample.licenseGuard true)).
Proof.
  pose proof
    (handlers_pass_through
       Sample.wrapError Sample.getAuthorizationHeader
       {| isSecurityEnabled := true |} (Sample.licenseGuard true)
       Sample.theRequest (ScopedClusterClient 1) (MlClientHandle 1)
       Sample.estimating (fun h => eq_refl)) as Hall.
  cbv zeta in Hall.
  induction Hall as [ | r c rs cs [Hcalls Hok] _ IH]; constructor.
  - exists c. split; [exact Hcalls | ]. apply Hok. reflexivity.
  - exact IH.
Defined.

Lemma every_handler_behind_fullLicenseAPIGuard_witness :
  Forall
    (fun r =>
       run Sample.estimating (handler r Sample.theRequest)
       = ([], Returned Sample.forbidden))
    (registeredRoutes Sample.wrapError Sample.getAuthorizationHeader
       {| isSecurityEnabled := true |} (Sample.licenseGuard false)).
Proof.
  apply Forall_forall. intros r Hin.
  apply (proj2 (proj2 (every_handler_behind_fullLicenseAPIGuard
                         Sample.wrapError Sample.getAuthorizationHeader
                         {| isSecurityEnabled := true |}
                         (Sample.licenseGuard false)))
           Sample.theRequest Sample.forbidden).
  - intro h. reflexivity.
  - exact Hin.
Defined.

(** * The detection rule *)

Section NetshRuleFacts.
Import Eql NetshRule.

Lemma query_parses :
  parseQuery query
  = Some {| category := "process";
            condition :=
              Or (And (InSet "event.type" ["start"; "process_started"])
                    (And (Like "process.name" "netsh.exe")
                       (And (Like "process.args" "disable")
                          (And (Like "process.args" "firewall")
                             (Like "process.args" "set")))))
                 advfirewallOff |}.
Proof. vm_compute. reflexivity. Qed.

(** C10.  With [and] binding tighter than [or], the query is a
    disjunction whose second branch is the [advfirewall]/[off]/[state]
    group alone: every process event whose arguments satisfy that group
    fires the rule, whatever its [event.type] and [process.name], and
    there is such an event whose [process.name] is not [netsh.exe],
    although the description speaks of the use of [netsh.exe]. *)
Theorem rule_fires_without_netsh :
  contains description "netsh.exe" = true
  /\ (exists q guarded,
        parseQuery query = Some q
        /\ condition q = Or guarded advfirewallOff)
  /\ (exists ev,
        fires ev = true
        /\ fieldValues ev "process.name" = ["powershell.exe"]
        /\ eval (Like "process.name" "netsh.exe") ev = false)
  /\ (forall ev,
        existsb (String.eqb "process") (fieldValues ev "event.category")
          = true ->
        eval advfirewallOff ev = true ->
        fires ev = true).
Proof.
  split; [vm_compute; reflexivity | ].
  split; [do 2 eexists; split; [apply query_parses | reflexivity] | ].
  split; [exists powershellEvent; repeat split; vm_compute; reflexivity | ].
  intros ev Hcat Hargs.
  unfold fires. rewrite query_parses.
  unfold matches. cbn [category condition].
  rewrite Hcat. cbn [andb]. cbn [eval]. fold (eval advfirewallOff ev).
  rewrite Hargs. apply orb_true_r.
Qed.

End NetshRuleFacts.

Lemma rule_fires_without_netsh_witness :
  NetshRule.fires NetshRule.powershellEvent = true.
Proof.
  apply (proj2 (proj2 (proj2 rule_fires_without_netsh))); reflexivity.
Defined.

(** * Further properties of the handlers *)

Section HandlerEdgeCases.

Variable wrapError : value -> CustomHttpResponseOptions.
Variable getAuthorizationHeader : Request -> value.

(** X1.  The bucket-span handler never answers with an error response of
    its own: it makes one estimation call, every response it returns has
    status 200, every value it throws is a Boom error of status 400, and it
    stays without an answer only while the estimation promise is
    pending. *)
Theorem estimate_bucket_span_outcomes (a : HandlerArgs) (env : Models) :
  let c := estimateBucketSpanFactory (client a) (VObj (body (request a))) in
  fst (run env (estimateBucketSpanHandler a)) = [c]
  /\ match snd (run env (estimateBucketSpanHandler a)) with
     | Returned r => status r = 200
     | Threw x => exists e, x = VBoom 400 e
     | NeverSettles => env c = Returns Pending
     end.
Proof.
  intros c. rewrite run_estimateBucketSpanHandler. fold c.
  split; [reflexivity | ]. cbn [snd].
  destruct (env c) as [e | [v | e | ]]; cbn.
  - exists e. reflexivity.
  - reflexivity.
  - reflexivity.
  - reflexivity.
Qed.

(** X2.  The soft failure cannot be told from a success by the response: a
    rejection with reason [m] and a fulfilment with the object
    [{ error: true, message: m }] give the same calls and the same
    response. *)
Theorem estimate_bucket_span_sentinel_ambiguous
    (a : HandlerArgs) (env1 env2 : Models) (m : value) :
  let c := estimateBucketSpanFactory (client a) (VObj (body (request a))) in
  env1 c = Returns (Rejected m) ->
  env2 c = Returns (Fulfilled (VObj [("error", VBool true); ("message", m)])) ->
  run env1 (estimateBucketSpanHandler a)
  = run env2 (estimateBucketSpanHandler a).
Proof.
  intros c Hrej Hful.
  rewrite !run_estimateBucketSpanHandler. fold c.
  rewrite Hrej, Hful. reflexivity.
Qed.

(** X3.  The memory-limit handler passes on nothing but the seven
    properties its helper destructures: two requests with the same clients
    whose bodies agree on those properties, whatever else the bodies and
    the headers hold, are handled by the same program. *)
Theorem calculate_model_memory_limit_reads_named_fields
    (a1 a2 : HandlerArgs) :
  client a1 = client a2 ->
  mlClient a1 = mlClient a2 ->
  Forall (fun k => get (body (request a1)) k = get (body (request a2)) k)
         modelMemoryLimitFields ->
  calculateModelMemoryLimitHandler wrapError a1
  = calculateModelMemoryLimitHandler wrapError a2.
Proof.
  intros Hcl Hml Hfields. unfold modelMemoryLimitFields in Hfields.
  repeat match goal with
         | H : Forall _ (_ :: _) |- _ =>
             let Hk := fresh "Hk" in
             let Hrest := fresh "Hrest" in
             apply Forall_cons_iff in H; destruct H as [Hk Hrest]
         end.
  unfold calculateModelMemoryLimitHandler, calculateModelMemoryLimit.
  cbv zeta. rewrite Hcl, Hml.
  repeat match goal with
         | H : get _ _ = get _ _ |- _ => rewrite H; clear H
         end.
  reflexivity.
Qed.

(** X4.  The datafeed-preview handler reads the body only through its [job]
    property: two requests with the same ML client, the same authorization
    header and the same [job] are handled by the same program, and a body
    without [job] still reaches [validateDatafeedPreview], with
    [undefined]. *)
Theorem datafeed_preview_reads_only_job
    (a1 a2 : HandlerArgs) (env : Models) :
  mlClient a1 = mlClient a2 ->
  getAuthorizationHeader (request a1) = getAuthorizationHeader (request a2) ->
  get (body (request a1)) "job" = get (body (request a2)) "job" ->
  validateDatafeedPreviewHandler wrapError getAuthorizationHeader a1
  = validateDatafeedPreviewHandler wrapError getAuthorizationHeader a2
  /\ (get (body (request a1)) "job" = VUndefined ->
       fst (run env (validateDatafeedPreviewHandler wrapError
                       getAuthorizationHeader a1))
       = [validateDatafeedPreview (mlClient a1)
            (getAuthorizationHeader (request a1)) VUndefined]).
Proof.
  intros Hml Hauth Hjob. unfold validateDatafeedPreviewHandler. split.
  - rewrite Hml, Hauth, Hjob. reflexivity.
  - intros Hmissing. rewrite run_call_await, Hmissing.
    destruct (env _) as [e | [v | e | ]]; reflexivity.
Qed.

(** X5.  The five routes are all registered with [router.post], under
    [/api/ml/validate/], at pairwise different paths, each with its own body
    schema and with [access:ml:canCreateJob] as its only tag. *)
Theorem route_table_shape (lic : MlLicense) (g : RouteGuard) :
  let table := registeredRoutes wrapError getAuthorizationHeader lic g in
  Forall (fun r =>
            method r = POST
            /\ String.prefix "/api/ml/validate/" (path (config r)) = true
            /\ options_tags (config r) = ["access:ml:canCreateJob"])
         table
  /\ NoDup (map (fun r => path (config r)) table)
  /\ map (fun r => validate_body (config r)) table
     = [ estimateBucketSpanSchema; modelMemoryLimitSchema;
         validateCardinalitySchema; validateJobSchema;
         validateDatafeedPreviewSchema ].
Proof.
  intros table. subst table. unfold registeredRoutes. simpl.
  split; [repeat constructor | ].
  split; [ | reflexivity].
  repeat (constructor;
          [ simpl; intros H;
            repeat (destruct H as [H | H]; [discriminate H | ]); exact H | ]).
  constructor.
Qed.

End HandlerEdgeCases.

Lemma estimate_bucket_span_sentinel_ambiguous_witness :
  run Sample.rejecting (estimateBucketSpanHandler Sample.theArgs)
  = run (fulfillingWith
           (VObj [("error", VBool true);
                  ("message", VStr "Unable to estimate bucket span")]))
        (estimateBucketSpanHandler Sample.theArgs).
Proof.
  apply (estimate_bucket_span_sentinel_ambiguous
           Sample.theArgs Sample.rejecting
           (fulfillingWith
              (VObj [("error", VBool true);
                     ("message", VStr "Unable to estimate bucket span")]))
           (VStr "Unable to estimate bucket span"));
    reflexivity.
Defined.

Lemma calculate_model_memory_limit_reads_named_fields_witness :
  calculateModelMemoryLimitHandler Sample.wrapError Sample.theArgs
  = calculateModelMemoryLimitHandler Sample.wrapError
      {| client := ScopedClusterClient 1;
         mlClient := MlClientHandle 1;
         request :=
           {| body := ("jobId", VStr "j1") :: body Sample.theRequest;
              headers := [] |} |}.
Proof.
  apply (calculate_model_memory_limit_reads_named_fields Sample.wrapError);
    [reflexivity | reflexivity | repeat constructor].
Defined.

Lemma datafeed_preview_reads_only_job_witness :
  let bare := {| client := ScopedClusterClient 7;
                 mlClient := MlClientHandle 1;
                 request := {| body := []; headers := [] |} |} in
  validateDatafeedPreviewHandler Sample.wrapError
    Sample.getAuthorizationHeader bare
  = validateDatafeedPreviewHandler Sample.wrapError
      Sample.getAuthorizationHeader
      {| client := ScopedClusterClient 1;
         mlClient := MlClientHandle 1;
         request := {| body := [("job", VUndefined); ("start", VNum 0)];
                       headers := [] |} |}
  /\ fst (run stalling
            (validateDatafeedPreviewHandler Sample.wrapError
               Sample.getAuthorizationHeader bare))
     = [validateDatafeedPreview (MlClientHandle 1) (VObj []) VUndefined].
Proof.
  intros bare.
  destruct (datafeed_preview_reads_only_job
              Sample.wrapError Sample.getAuthorizationHeader
              bare
              {| client := ScopedClusterClient 1;
                 mlClient := MlClientHandle 1;
                 request := {| body := [("job", VUndefined); ("start", VNum 0)];
                               headers := [] |} |}
              stalling eq_refl eq_refl eq_refl) as [Hsame Hempty].
  split; [exact Hsame | exact (Hempty eq_refl)].
Defined.

(** * Further properties of the breadcrumb hook and of the rule *)



Section NetshRuleCharacterisation.
Import Eql NetshRule.

Lemma eval_Like_iff (ev : Event) (f lit : string) :
  eval (Like f lit) ev = true <-> fieldIs ev f lit.
Proof.
  unfold fieldIs. cbn [eval]. rewrite existsb_exists.
  split; intros [v [Hin Hv]]; exists v; split; try exact Hin;
    apply String.eqb_eq; exact Hv.
Qed.

Lemma existsb_eqb_iff (s : string) (l : list string) :
  existsb (String.eqb s) l = true <-> In s l.
Proof.
  rewrite existsb_exists. split.
  - intros [v [Hin Hv]]. apply String.eqb_eq in Hv. subst v. exact Hin.
  - intros Hin. exists s. split; [exact Hin | apply String.eqb_refl].
Qed.

Lemma eval_InSet_iff (ev : Event) (f : string) (vs : list string) :
  eval (InSet f vs) ev = true
  <-> exists v, In v (fieldValues ev f) /\ In v vs.
Proof.
  cbn [eval]. rewrite existsb_exists.
  split; intros [v [Hin Hv]]; exists v; split; try exact Hin.
  - apply existsb_exists in Hv. destruct Hv as [w [Hw Heq]].
    apply String.eqb_eq in Heq. subst w. exact Hw.
  - apply existsb_exists. exists v. split; [exact Hv | apply String.eqb_refl].
Qed.

(** X7.  The rule fires on exactly these events: process events that are
    either a [start]/[process_started] of [netsh.exe] (in any case) with
    the arguments [disable], [firewall] and [set], or carry the arguments
    [advfirewall], [off] and [state].  So it never fires on an event of
    another category, nor on a process event with neither group of
    arguments. *)
Theorem rule_fires_iff (ev : Event) :
  fires ev = true
  <-> In "process" (fieldValues ev "event.category")
      /\ (((In "start" (fieldValues ev "event.type")
            \/ In "process_started" (fieldValues ev "event.type"))
           /\ fieldIs ev "process.name" "netsh.exe"
           /\ fieldIs ev "process.args" "disable"
           /\ fieldIs ev "process.args" "firewall"
           /\ fieldIs ev "process.args" "set")
          \/ (fieldIs ev "process.args" "advfirewall"
              /\ fieldIs ev "process.args" "off"
              /\ fieldIs ev "process.args" "state")).
Proof.
  unfold fires. rewrite query_parses.
  unfold matches, advfirewallOff. cbn [category condition].
  rewrite andb_true_iff, existsb_eqb_iff.
  change (eval (Or ?l ?r) ev) with (orb (eval l ev) (eval r ev)).
  cbn [eval]. rewrite orb_true_iff, !andb_true_iff.
  change (existsb (fun v => existsb (String.eqb v) ?vs) (fieldValues ev ?f))
    with (eval (InSet f vs) ev).
  repeat match goal with
         | |- context [existsb (fun v => (lower v =? lower ?lit)%string)
                         (fieldValues ev ?f)] =>
             change (existsb (fun v => (lower v =? lower lit)%string)
                       (fieldValues ev f))
               with (eval (Like f lit) ev)
         end.
  rewrite !eval_Like_iff, eval_InSet_iff.
  split.
  - intros [Hcat [[[v [Hv Hin]] Hrest] | Hoff]]; split; try exact Hcat.
    + left. split; [ | exact Hrest].
      destruct Hin as [<- | [<- | []]]; [left | right]; exact Hv.
    + right. exact Hoff.
  - intros [Hcat [[Htype Hrest] | Hoff]]; split; try exact Hcat.
    + left. split; [ | exact Hrest].
      destruct Htype as [Hs | Hp];
        [exists "start" | exists "process_started"]; simpl; auto.
    + right. exact Hoff.
Qed.

End NetshRuleCharacterisation.

Lemma rule_fires_iff_witness :
  NetshRule.fires netshEvent = true.
Proof.
  apply (proj2 (rule_fires_iff netshEvent)).
  split; [left; reflexivity | ].
  left. split; [left; left; reflexivity | ].
  split; [exists "NETSH.EXE"; split; [left | ]; reflexivity | ].
  split; [exists "disable"; split; [simpl; tauto | reflexivity] | ].
  split; [exists "firewall"; split; [simpl; tauto | reflexivity] | ].
  exists "set"; split; [simpl; tauto | reflexivity].
Defined.
